(** * Relevancy evaluation: the evaluator contract and the yes/no verdict

    A shallow embedding of [llama_index/evaluation/base.py] and
    [llama_index/evaluation/relevancy.py].

    Texts are [string]s (sequences of 8-bit characters).  The collaborators
    the evaluator calls (service context, summary index, query engine) are
    oracles: functions that either return a value or raise.  Every call to
    a collaborator is recorded in a log, so that "no index was built" and
    "this text was issued as the query" are statements about the log. *)

From Stdlib Require Import String Ascii List Bool Arith Lia SpecFloat.
Import ListNotations.

Local Open Scope list_scope.
Local Open Scope string_scope.

(** ** Text primitives: [str.lower] and the [in] operator *)

Module Text.

(** The line feed written [\n] in the Python literals. *)
Definition nl : string := String (ascii_of_nat 10) EmptyString.

Definition is_upper (c : ascii) : bool :=
  ((65 <=? nat_of_ascii c) && (nat_of_ascii c <=? 90))%nat.

(** [lower] on one character: the letters [A]..[Z] move to [a]..[z], every
    other character is kept.  (Python lowers letters outside ASCII too; none
    of them becomes [y], [e] or [s], so the search for [yes] in a lowered
    text is the same.) *)
Definition lower_char (c : ascii) : ascii :=
  if is_upper c then ascii_of_nat (nat_of_ascii c + 32) else c.

(** [s.lower()] *)
Fixpoint lower (s : string) : string :=
  match s with
  | EmptyString => EmptyString
  | String c s' => String (lower_char c) (lower s')
  end.

(** [hay.startswith(needle)] *)
Fixpoint startswith (needle hay : string) : bool :=
  match needle, hay with
  | EmptyString, _ => true
  | String _ _, EmptyString => false
  | String a n', String b h' => Ascii.eqb a b && startswith n' h'
  end.

(** [needle in hay]: [needle] starts at some position of [hay]. *)
Fixpoint contains (needle hay : string) : bool :=
  startswith needle hay ||
  match hay with
  | EmptyString => false
  | String _ h' => contains needle h'
  end.

End Text.

(** ** Objects of the surrounding framework that the evaluators handle *)

Module schema.

(** Modelled from the spec: the [Document] class of [llama_index.schema] is
    not among the sources; each context string becomes one independent
    document carrying that text. *)
Record Document : Type := { text : string }.

(** Modelled from the spec: the [Response] class of
    [llama_index.response.schema] is not among the sources; a response
    object exposes a response text field and an ordered sequence of source
    items, each with a method giving its textual content. *)
Record Response (Node : Type) : Type := {
  response : option string;
  source_nodes : list Node
}.
Arguments response {Node} _.
Arguments source_nodes {Node} _.

Class HasContent (Node : Type) : Type := get_content : Node -> string.

End schema.

(** ** The evaluator contract ([evaluation/base.py]) *)

Module base.

Import schema.

(** Python exceptions, by class and message. *)
Inductive exn : Type :=
| ValueError (msg : string)
| TypeError (msg : string)
| OtherError (cls msg : string).

(** What a call does: it returns a value or raises. *)
Inductive outcome (A : Type) : Type :=
| Returns (a : A)
| Raises (e : exn).
Arguments Returns {A} a.
Arguments Raises {A} e.

(** Modelled from the spec: the prompt template classes of
    [llama_index.prompts] are not among the sources; a template is a plain
    configuration string with named placeholders such as [{query_str}].
    What the constructor checks in the text it is given is not known from
    the sources and is not modelled. *)
Record BasePromptTemplate : Type := { template : string }.

Definition PromptTemplate (s : string) : BasePromptTemplate :=
  {| template := s |}.

(** The calls that leave the evaluator, in the order they are made. *)
Inductive event : Type :=
| ServiceContext_from_defaults
| SummaryIndex_from_documents (docs : list Document)
| as_query_engine_call (text_qa_template refine_template : BasePromptTemplate)
| query_call (query_str : string).

(** A computation: the log of collaborator calls it made, and its outcome. *)
Definition M (A : Type) : Type := (list event * outcome A)%type.

Definition ret {A} (a : A) : M A := ([], Returns a).
Definition raise {A} (e : exn) : M A := ([], Raises e).

Definition bind {A B} (m : M A) (k : A -> M B) : M B :=
  match m with
  | (log, Returns a) => let (log', o) := k a in ((log ++ log')%list, o)
  | (log, Raises e) => (log, Raises e)
  end.

(** One call to a collaborator: logged, whatever its outcome. *)
Definition call {A} (ev : event) (o : outcome A) : M A := ([ev], o).

Definition log_of {A} (m : M A) : list event := fst m.
Definition outcome_of {A} (m : M A) : outcome A := snd m.

(** Values of keyword options, and the [**kwargs] dictionary. *)
Inductive PyValue : Type :=
| PyNone
| PyBool (b : bool)
| PyStr (s : string)
| PyStrList (l : list string).

Definition Kwargs : Type := list (string * PyValue).

Definition has_key (k : string) (kwargs : Kwargs) : bool :=
  existsb (fun kv => String.eqb (fst kv) k) kwargs.

(** [class EvaluationResult(BaseModel)]: six optional fields, all [None]
    unless given.  A Python float is a binary floating-point number. *)
Record EvaluationResult : Type := {
  query : option string;
  contexts : option (list string);
  response : option string;
  passing : option bool;
  feedback : option string;
  score : option spec_float
}.

(** [class BaseEvaluator(ABC)] with its abstract method. *)
Class BaseEvaluator (E : Type) : Type := {
  evaluate : E -> option string -> option string -> option (list string) ->
             Kwargs -> M EvaluationResult
}.

(** [BaseEvaluator.evaluate_response].  The call
    [self.evaluate(query=.., response=.., contexts=.., **kwargs)] passes
    [contexts] by keyword and again whatever is in [kwargs]; an option named
    [contexts] makes that call a [TypeError].  ([query] and [response] are
    parameters of [evaluate_response] itself and cannot be in [kwargs].) *)
Definition evaluate_response {E Node} `{BaseEvaluator E} `{HasContent Node}
    (self : E) (query : option string) (response : option (Response Node))
    (kwargs : Kwargs) : M EvaluationResult :=
  let (response_str, contexts) :=
    match response with
    | Some r => (schema.response r, Some (map get_content (source_nodes r)))
    | None => (None, None)
    end in
  if has_key "contexts" kwargs
  then raise (TypeError "evaluate() got multiple values for keyword argument 'contexts'")
  else evaluate self query response_str contexts kwargs.

End base.

Notation "x <- m ;; k" := (base.bind m (fun x => k))
  (at level 61, m at next level, right associativity).

(** ** The relevancy strategy ([evaluation/relevancy.py]) *)

Module relevancy.

Import Text schema base.

(** The collaborators the strategy calls through: the default service
    context factory, the summary index built from documents, the query
    engine obtained from the index, the query itself, and [str] of the
    response object.  Each may raise, except [str].  What a collaborator
    answers is a function of what it is called with: the language model
    behind it is fixed for the run. *)
Class Collaborators : Type := {
  ServiceContext : Type;
  SummaryIndex : Type;
  QueryEngine : Type;
  ResponseObject : Type;
  from_defaults : outcome ServiceContext;
  from_documents : list Document -> ServiceContext -> outcome SummaryIndex;
  as_query_engine : SummaryIndex -> BasePromptTemplate -> BasePromptTemplate ->
                    outcome QueryEngine;
  engine_query : QueryEngine -> string -> outcome ResponseObject;
  str : ResponseObject -> string
}.

Definition DEFAULT_EVAL_TEMPLATE : BasePromptTemplate :=
  PromptTemplate
    ("Your task is to evaluate if the response for the query     is in line with the context information provided." ++ nl ++
     "You have two options to answer. Either YES/ NO." ++ nl ++
     "Answer - YES, if the response for the query     is in line with context information otherwise NO." ++ nl ++
     "Query and Response: " ++ nl ++ " {query_str}" ++ nl ++
     "Context: " ++ nl ++ " {context_str}" ++ nl ++
     "Answer: ").

Definition DEFAULT_REFINE_TEMPLATE : BasePromptTemplate :=
  PromptTemplate
    ("We want to understand if the following query and response is" ++
     "in line with the context information: " ++ nl ++ " {query_str}" ++ nl ++
     "We have provided an existing YES/NO answer: " ++ nl ++ " {existing_answer}" ++ nl ++
     "We have the opportunity to refine the existing answer " ++
     "(only if needed) with some more context below." ++ nl ++
     "------------" ++ nl ++
     "{context_msg}" ++ nl ++
     "------------" ++ nl ++
     "If the existing answer was already YES, still answer YES. " ++
     "If the information is present in the new context, answer YES. " ++
     "Otherwise answer NO." ++ nl).

Section Strategy.

Context `{Collaborators}.

(** The attributes [__init__] sets. *)
Record RelevancyEvaluator : Type := {
  _service_context : ServiceContext;
  _raise_error : bool;
  _eval_template : BasePromptTemplate;
  _refine_template : BasePromptTemplate
}.

(** The two template arguments of [__init__]: a [str] is wrapped in
    [PromptTemplate], a template object is kept, [None] gives the default. *)
Definition template_or (arg : option (string + BasePromptTemplate))
    (default : BasePromptTemplate) : BasePromptTemplate :=
  match arg with
  | Some (inl s) => PromptTemplate s
  | Some (inr t) => t
  | None => default
  end.

(** [RelevancyEvaluator.__init__] *)
Definition __init__ (service_context : option ServiceContext)
    (raise_error : bool)
    (eval_template refine_template : option (string + BasePromptTemplate))
    : M RelevancyEvaluator :=
  sc <- match service_context with
        | Some sc => ret sc
        | None => call ServiceContext_from_defaults from_defaults
        end ;;
  ret {| _service_context := sc;
         _raise_error := raise_error;
         _eval_template := template_or eval_template DEFAULT_EVAL_TEMPLATE;
         _refine_template := template_or refine_template DEFAULT_REFINE_TEMPLATE |}.

(** [RelevancyEvaluator.evaluate]; [kwargs] is deleted on entry. *)
Definition evaluate (self : RelevancyEvaluator)
    (query response : option string) (contexts : option (list string))
    (kwargs : Kwargs) : M EvaluationResult :=
  match query, contexts, response with
  | Some query, Some contexts, Some response =>
      let docs := map (fun context => {| text := context |}) contexts in
      index <- call (SummaryIndex_from_documents docs)
                    (from_documents docs (_service_context self)) ;;
      let query_response :=
        "Question: " ++ query ++ nl ++ "Response: " ++ response in
      query_engine <- call (as_query_engine_call (_eval_template self)
                                                 (_refine_template self))
                           (as_query_engine index (_eval_template self)
                                                  (_refine_template self)) ;;
      response_obj <- call (query_call query_response)
                           (engine_query query_engine query_response) ;;
      let raw_response_txt := str response_obj in
      passing <- (if contains "yes" (lower raw_response_txt)
                  then ret true
                  else if _raise_error self
                       then raise (ValueError "The response is invalid")
                       else ret false) ;;
      ret {| base.query := Some query;
             base.contexts := None;
             base.response := Some response;
             base.passing := Some passing;
             base.feedback := Some raw_response_txt;
             base.score := None |}
  | _, _, _ => raise (ValueError "query, contexts, and response must be provided")
  end.

#[export] Instance RelevancyEvaluator_BaseEvaluator :
  BaseEvaluator RelevancyEvaluator := {| base.evaluate := evaluate |}.

End Strategy.

(** A scripted collaborator: every construction succeeds and the query
    engine answers [answer] to any query. *)
Definition scripted (answer : string) : Collaborators := {|
  ServiceContext := unit;
  SummaryIndex := list Document;
  QueryEngine := list Document;
  ResponseObject := string;
  from_defaults := Returns tt;
  from_documents := fun docs _ => Returns docs;
  as_query_engine := fun index _ _ => Returns index;
  engine_query := fun _ _ => Returns answer;
  str := fun r => r
|}.

(** An evaluator over the scripted collaborator, with the default
    templates. *)
Definition scripted_evaluator (answer : string) (raise_error : bool)
    : @RelevancyEvaluator (scripted answer) :=
  @Build_RelevancyEvaluator (scripted answer) tt raise_error
    DEFAULT_EVAL_TEMPLATE DEFAULT_REFINE_TEMPLATE.

(** A source item that is just its text. *)
#[export] Instance text_node : HasContent string := fun s => s.

(** A collaborator that answers every query with the query text itself. *)
Definition parrot : Collaborators := {|
  ServiceContext := unit;
  SummaryIndex := list Document;
  QueryEngine := list Document;
  ResponseObject := string;
  from_defaults := Returns tt;
  from_documents := fun docs _ => Returns docs;
  as_query_engine := fun index _ _ => Returns index;
  engine_query := fun _ query_str => Returns query_str;
  str := fun r => r
|}.

(** A collaborator whose model cannot be reached: the index and the query
    engine are obtained, and every query raises [e]. *)
Definition unreachable (e : exn) : Collaborators := {|
  ServiceContext := unit;
  SummaryIndex := list Document;
  QueryEngine := list Document;
  ResponseObject := string;
  from_defaults := Returns tt;
  from_documents := fun docs _ => Returns docs;
  as_query_engine := fun index _ _ => Returns index;
  engine_query := fun _ _ => Raises e;
  str := fun r => r
|}.

End relevancy.

(** ** The recognized placeholder names *)

Module placeholders.

Import Text base.

(** The names the specification recognizes in the eval template and in the
    refine template; they are the names the two default templates use. *)
Definition eval_placeholders : list string := ["query_str"; "context_str"].

Definition refine_placeholders : list string :=
  ["query_str"; "existing_answer"; "context_msg"].

(** The template mentions the placeholder [{name}]. *)
Definition mentions (name : string) (t : BasePromptTemplate) : bool :=
  contains ("{" ++ name ++ "}") (template t).

(** The template mentions every one of [names]. *)
Definition has_placeholders (names : list string) (t : BasePromptTemplate) : bool :=
  forallb (fun name => mentions name t) names.

End placeholders.

(** * Properties *)

Import Text schema base relevancy placeholders.

(** ** Facts about texts *)

Section TextFacts.

Lemma startswith_app (n h : string) :
  startswith n h = true <-> exists post, h = n ++ post.
Proof.
  revert h; induction n as [|a n IH]; intros h; simpl.
  - split; [intros _; now exists h | reflexivity].
  - destruct h as [|b h].
    + split; [discriminate | intros [post H]; discriminate].
    + rewrite andb_true_iff, Ascii.eqb_eq, IH. split.
      * intros [-> [post ->]]. now exists post.
      * intros [post H]. injection H as -> ->. split; [reflexivity | now exists post].
Qed.

(** The [in] operator finds exactly the texts of the form
    [pre ++ needle ++ post]. *)
Lemma contains_app (n h : string) :
  contains n h = true <-> exists pre post, h = pre ++ n ++ post.
Proof.
  induction h as [|b h IH].
  - simpl. rewrite orb_false_r, startswith_app. split.
    + intros [post H]. now exists EmptyString, post.
    + intros [pre [post H]]. destruct pre; simpl in H.
      * now exists post.
      * discriminate.
  - cbn [contains]. rewrite orb_true_iff, startswith_app, IH. split.
    + intros [[post H] | [pre [post H]]].
      * now exists EmptyString, post.
      * exists (String b pre), post. simpl. now rewrite H.
    + intros [pre [post H]]. destruct pre as [|c pre]; simpl in H.
      * left. now exists post.
      * right. injection H as _ H. now exists pre, post.
Qed.

Lemma contains_intro (n pre post : string) :
  contains n (pre ++ n ++ post) = true.
Proof. apply contains_app. now exists pre, post. Qed.

Lemma lower_app (s t : string) : lower (s ++ t) = lower s ++ lower t.
Proof. induction s as [|c s IH]; simpl; [reflexivity | now rewrite IH]. Qed.

Lemma lower_length (s : string) : String.length (lower s) = String.length s.
Proof. induction s as [|c s IH]; simpl; [reflexivity | now rewrite IH]. Qed.

(** A lowered text splits the way the text it comes from does. *)
Lemma lower_split (s u v : string) :
  lower s = u ++ v -> exists s1 s2, s = s1 ++ s2 /\ lower s1 = u /\ lower s2 = v.
Proof.
  revert s; induction u as [|a u IH]; intros s H; simpl in H.
  - exists EmptyString, s. now repeat split.
  - destruct s as [|c s]; simpl in H; [discriminate|].
    injection H as Hc H. destruct (IH _ H) as (s1 & s2 & -> & <- & <-).
    exists (String c s1), s2. simpl. now rewrite Hc.
Qed.

(** The test [yes in raw.lower()] succeeds exactly on the texts that hold,
    anywhere, three characters whose lowercase is [yes]. *)
Lemma contains_yes_lower (raw : string) :
  contains "yes" (lower raw) = true <->
  exists pre mid post, raw = pre ++ mid ++ post /\ lower mid = "yes".
Proof.
  rewrite contains_app. split.
  - intros (u & v & Huv).
    destruct (lower_split _ _ _ Huv) as (pre & rest & -> & _ & Hrest).
    destruct (lower_split rest "yes" v Hrest) as (mid & post & -> & Hmid & _).
    now exists pre, mid, post.
  - intros (pre & mid & post & -> & Hmid).
    exists (lower pre), (lower post). now rewrite !lower_app, Hmid.
Qed.

Lemma lower_char_idem (c : ascii) : lower_char (lower_char c) = lower_char c.
Proof. destruct c as [[] [] [] [] [] [] [] []]; reflexivity. Qed.

Lemma lower_idem (s : string) : lower (lower s) = lower s.
Proof. induction s as [|c s IH]; simpl; [reflexivity | now rewrite lower_char_idem, IH]. Qed.

End TextFacts.

(** ** Runs of [RelevancyEvaluator.evaluate] *)

(** The documents built from the contexts, in order. *)
Abbreviation docs_of contexts :=
  (map (fun context => {| text := context |}) contexts).

(** The text issued as the query. *)
Abbreviation subject_of q r :=
  ("Question: " ++ q ++ nl ++ "Response: " ++ r).

(** The result record [evaluate] builds around a verdict. *)
Abbreviation result_of q r b raw :=
  {| base.query := Some q; base.contexts := None; base.response := Some r;
     base.passing := Some b; base.feedback := Some raw; base.score := None |}.

Section EvaluateFacts.

Context `{Collaborators}.

Implicit Types (self : RelevancyEvaluator) (kwargs : Kwargs).

(** When the three collaborator calls return, the run is determined by the
    answer text. *)
Lemma evaluate_answered self q r cs kwargs index engine response_obj :
  from_documents (docs_of cs) (_service_context self) = Returns index ->
  as_query_engine index (_eval_template self) (_refine_template self)
    = Returns engine ->
  engine_query engine (subject_of q r) = Returns response_obj ->
  evaluate self (Some q) (Some r) (Some cs) kwargs =
    ([SummaryIndex_from_documents (docs_of cs);
      as_query_engine_call (_eval_template self) (_refine_template self);
      query_call (subject_of q r)],
     if contains "yes" (lower (str response_obj))
     then Returns (result_of q r true (str response_obj))
     else if _raise_error self
          then Raises (ValueError "The response is invalid")
          else Returns (result_of q r false (str response_obj))).
Proof.
  intros Hidx Heng Hq. unfold evaluate, bind, call, ret, raise.
  rewrite Hidx, Heng, Hq.
  destruct (contains "yes" (lower (str response_obj))); [reflexivity|].
  destruct (_raise_error self); reflexivity.
Qed.

(** A run that returns a result went through the three collaborator calls,
    and the result is the record built around the verdict. *)
Lemma evaluate_returns_inv self query response contexts kwargs log res :
  evaluate self query response contexts kwargs = (log, Returns res) ->
  exists q r cs index engine response_obj,
    query = Some q /\ response = Some r /\ contexts = Some cs /\
    from_documents (docs_of cs) (_service_context self) = Returns index /\
    as_query_engine index (_eval_template self) (_refine_template self)
      = Returns engine /\
    engine_query engine (subject_of q r) = Returns response_obj /\
    res = result_of q r (contains "yes" (lower (str response_obj)))
                    (str response_obj).
Proof.
  destruct query as [q|], contexts as [cs|], response as [r|];
    try (cbn; discriminate).
  unfold evaluate, bind, call, ret, raise.
  destruct (from_documents _ _) as [index|e] eqn:Hidx; [|discriminate].
  destruct (as_query_engine _ _ _) as [engine|e] eqn:Heng; [|discriminate].
  destruct (engine_query _ _) as [response_obj|e] eqn:Hq; [|discriminate].
  destruct (contains "yes" (lower (str response_obj))) eqn:Hyes.
  - intros [= <- <-]. exists q, r, cs, index, engine, response_obj.
    now rewrite Hyes.
  - destruct (_raise_error self); [discriminate|].
    intros [= <- <-]. exists q, r, cs, index, engine, response_obj.
    now rewrite Hyes.
Qed.

(** With all three inputs present the index is the first thing built. *)
Lemma evaluate_log_head self q r cs kwargs :
  exists rest,
    log_of (evaluate self (Some q) (Some r) (Some cs) kwargs) =
    SummaryIndex_from_documents (docs_of cs) :: rest.
Proof.
  unfold evaluate, bind, call, ret, raise, log_of.
  destruct (from_documents _ _) as [index|e]; [|now eexists].
  destruct (as_query_engine _ _ _) as [engine|e]; [|now eexists].
  destruct (engine_query _ _) as [response_obj|e]; [|now eexists].
  destruct (contains "yes" (lower (str response_obj))); [now eexists|].
  destruct (_raise_error self); now eexists.
Qed.

(** With an input missing nothing is called. *)
Lemma evaluate_missing self query response contexts kwargs :
  query = None \/ response = None \/ contexts = None ->
  evaluate self query response contexts kwargs =
    ([], Raises (ValueError "query, contexts, and response must be provided")).
Proof.
  destruct query, response, contexts; try reflexivity.
  intros [Habs | [Habs | Habs]]; discriminate.
Qed.

End EvaluateFacts.

(** ** Construction *)

Section InitFacts.

Context `{Collaborators}.

(** What a successful construction stored. *)
Lemma init_returns_inv service_context raise_error eval_template
    refine_template log self :
  __init__ service_context raise_error eval_template refine_template
    = (log, Returns self) ->
  _raise_error self = raise_error /\
  _eval_template self = template_or eval_template DEFAULT_EVAL_TEMPLATE /\
  _refine_template self = template_or refine_template DEFAULT_REFINE_TEMPLATE.
Proof.
  unfold __init__, bind, call, ret.
  destruct service_context as [sc|].
  - intros [= <- <-]. now repeat split.
  - destruct from_defaults as [sc|e]; [|discriminate].
    intros [= <- <-]. now repeat split.
Qed.

(** Construction with a service context calls nothing and returns. *)
Lemma init_with_context sc raise_error eval_template refine_template :
  __init__ (Some sc) raise_error eval_template refine_template =
    ([], Returns {| _service_context := sc;
                    _raise_error := raise_error;
                    _eval_template :=
                      template_or eval_template DEFAULT_EVAL_TEMPLATE;
                    _refine_template :=
                      template_or refine_template DEFAULT_REFINE_TEMPLATE |}).
Proof. reflexivity. Qed.

End InitFacts.

(** ** The claims about [RelevancyEvaluator.evaluate] *)

Section EvaluateClaims.

Context `{Collaborators}.

Implicit Types (self : RelevancyEvaluator) (kwargs : Kwargs).

(** C2.  When [query], [response] or [contexts] is [None], [evaluate] raises
    [ValueError] with an empty call log: no index was built, no query engine
    obtained, no query issued, and no result is returned. *)
Theorem evaluate_rejects_absent_input self query response contexts kwargs :
  query = None \/ response = None \/ contexts = None ->
  log_of (evaluate self query response contexts kwargs) = [] /\
  outcome_of (evaluate self query response contexts kwargs) =
    Raises (ValueError "query, contexts, and response must be provided") /\
  (forall res,
     outcome_of (evaluate self query response contexts kwargs) <> Returns res).
Proof.
  intros Habsent. rewrite (evaluate_missing _ _ _ _ _ Habsent).
  repeat split. intros res. discriminate.
Qed.

(** C10.  The keyword options are never read: two calls that differ only in
    them have the same call log and the same outcome. *)
Theorem evaluate_ignores_kwargs self query response contexts kwargs kwargs' :
  evaluate self query response contexts kwargs =
  evaluate self query response contexts kwargs'.
Proof. reflexivity. Qed.

(** C9.  Every query [evaluate] issues to the query engine is the text
    [Question: ] + query + line feed + [Response: ] + response; and when the
    index and the query engine are obtained, that query is issued, once. *)
Theorem evaluate_query_subject self query response contexts kwargs :
  (forall s,
     In (query_call s) (log_of (evaluate self query response contexts kwargs)) ->
     exists q r, query = Some q /\ response = Some r /\
                 s = "Question: " ++ q ++ nl ++ "Response: " ++ r) /\
  (forall q r cs index engine,
     query = Some q -> response = Some r -> contexts = Some cs ->
     from_documents (docs_of cs) (_service_context self) = Returns index ->
     as_query_engine index (_eval_template self) (_refine_template self)
       = Returns engine ->
     filter (fun ev => match ev with query_call _ => true | _ => false end)
            (log_of (evaluate self query response contexts kwargs)) =
     [query_call ("Question: " ++ q ++ nl ++ "Response: " ++ r)]).
Proof.
  split.
  - intros s Hin.
    destruct query as [q|], contexts as [cs|], response as [r|];
      try (cbn in Hin; contradiction).
    exists q, r. repeat split.
    revert Hin. unfold evaluate, bind, call, ret, raise, log_of.
    destruct (from_documents _ _) as [index|e];
      [|cbn; intros [Hev|[]]; discriminate].
    destruct (as_query_engine _ _ _) as [engine|e];
      [|cbn; intros [Hev|[Hev|[]]]; discriminate].
    assert (Hlast : forall l : list event,
              In (query_call s)
                 ([SummaryIndex_from_documents (docs_of cs)] ++
                  [as_query_engine_call (_eval_template self)
                                        (_refine_template self)] ++
                  [query_call (subject_of q r)] ++ l)%list ->
              l = [] -> s = subject_of q r).
    { intros l Hl ->. cbn in Hl.
      destruct Hl as [Hev|[Hev|[Hev|[]]]]; try discriminate.
      now injection Hev as <-. }
    destruct (engine_query _ _) as [response_obj|e].
    + destruct (contains "yes" (lower (str response_obj))).
      * intros Hin. now apply (Hlast [] Hin).
      * destruct (_raise_error self); intros Hin; now apply (Hlast [] Hin).
    + intros Hin. now apply (Hlast [] Hin).
  - intros q r cs index engine -> -> -> Hidx Heng.
    unfold evaluate, bind, call, ret, raise, log_of. rewrite Hidx, Heng.
    destruct (engine_query _ _) as [response_obj|e]; [|reflexivity].
    destruct (contains "yes" (lower (str response_obj))); [reflexivity|].
    destruct (_raise_error self); reflexivity.
Qed.

End EvaluateClaims.

Section VerdictClaims.

Context `{Collaborators}.

Implicit Types (self : RelevancyEvaluator) (kwargs : Kwargs).

(** C6.  With [query] and [response] present and [contexts] the empty list,
    [evaluate] does not stop at the input check: its first call builds the
    index over zero documents, and when the collaborator answers, the
    outcome is the verdict drawn from that answer. *)
Theorem evaluate_accepts_empty_contexts self q r kwargs :
  (exists rest,
     log_of (evaluate self (Some q) (Some r) (Some []) kwargs) =
     SummaryIndex_from_documents [] :: rest) /\
  evaluate self (Some q) (Some r) (Some []) kwargs <>
    ([], Raises (ValueError "query, contexts, and response must be provided")) /\
  (forall index engine response_obj,
     from_documents [] (_service_context self) = Returns index ->
     as_query_engine index (_eval_template self) (_refine_template self)
       = Returns engine ->
     engine_query engine ("Question: " ++ q ++ nl ++ "Response: " ++ r)
       = Returns response_obj ->
     outcome_of (evaluate self (Some q) (Some r) (Some []) kwargs) =
       if contains "yes" (lower (str response_obj))
       then Returns {| base.query := Some q; base.contexts := None;
                       base.response := Some r; base.passing := Some true;
                       base.feedback := Some (str response_obj);
                       base.score := None |}
       else if _raise_error self
            then Raises (ValueError "The response is invalid")
            else Returns {| base.query := Some q; base.contexts := None;
                            base.response := Some r; base.passing := Some false;
                            base.feedback := Some (str response_obj);
                            base.score := None |}).
Proof.
  destruct (evaluate_log_head self q r [] kwargs) as [rest Hlog].
  split; [now exists rest|]. split.
  - intros Heq. rewrite Heq in Hlog. discriminate.
  - intros index engine response_obj Hidx Heng Hq.
    now rewrite (evaluate_answered self q r [] kwargs _ _ _ Hidx Heng Hq).
Qed.

(** C4.  A call with the three inputs present that returns a result returns
    the record holding the input query and response, a verdict that is
    [True] or [False], the raw answer text as feedback, and neither contexts
    nor score. *)
Theorem evaluate_result_fields self q r cs kwargs log res :
  evaluate self (Some q) (Some r) (Some cs) kwargs = (log, Returns res) ->
  base.query res = Some q /\
  base.response res = Some r /\
  (base.passing res = Some true \/ base.passing res = Some false) /\
  base.contexts res = None /\
  base.score res = None /\
  exists index engine response_obj,
    from_documents (docs_of cs) (_service_context self) = Returns index /\
    as_query_engine index (_eval_template self) (_refine_template self)
      = Returns engine /\
    engine_query engine ("Question: " ++ q ++ nl ++ "Response: " ++ r)
      = Returns response_obj /\
    base.feedback res = Some (str response_obj).
Proof.
  intros Hrun.
  destruct (evaluate_returns_inv _ _ _ _ _ _ _ Hrun)
    as (q' & r' & cs' & index & engine & response_obj & Hq & Hr & Hcs &
        Hidx & Heng & Hans & ->).
  injection Hq as <-. injection Hr as <-. injection Hcs as <-.
  cbn. repeat split.
  - destruct (contains "yes" (lower (str response_obj))); [now left | now right].
  - now exists index, engine, response_obj.
Qed.

(** C3.  When the answer text gives a negative verdict, an evaluator
    constructed with [raise_error = True] raises [ValueError] and returns no
    result, and one constructed with [raise_error = False] returns a result
    whose [passing] is [False]. *)
Theorem negative_verdict_raises_or_returns service_context raise_error
    eval_template refine_template log0 self q r cs kwargs
    index engine response_obj :
  __init__ service_context raise_error eval_template refine_template
    = (log0, Returns self) ->
  from_documents (docs_of cs) (_service_context self) = Returns index ->
  as_query_engine index (_eval_template self) (_refine_template self)
    = Returns engine ->
  engine_query engine ("Question: " ++ q ++ nl ++ "Response: " ++ r)
    = Returns response_obj ->
  contains "yes" (lower (str response_obj)) = false ->
  (raise_error = true ->
     outcome_of (evaluate self (Some q) (Some r) (Some cs) kwargs) =
       Raises (ValueError "The response is invalid") /\
     forall res,
       outcome_of (evaluate self (Some q) (Some r) (Some cs) kwargs)
         <> Returns res) /\
  (raise_error = false ->
     exists res,
       outcome_of (evaluate self (Some q) (Some r) (Some cs) kwargs)
         = Returns res /\
       base.passing res = Some false).
Proof.
  intros Hinit Hidx Heng Hq Hno.
  destruct (init_returns_inv _ _ _ _ _ _ Hinit) as (Hflag & _ & _).
  rewrite (evaluate_answered self q r cs kwargs _ _ _ Hidx Heng Hq).
  cbn. rewrite Hno, Hflag. split; intros ->.
  - split; [reflexivity | intros res; discriminate].
  - eexists. split; reflexivity.
Qed.

End VerdictClaims.

Section YesClaims.

Context `{Collaborators}.

Implicit Types (self : RelevancyEvaluator) (kwargs : Kwargs).

(** C1 (amended).  When the collaborator answers, the answer text holds
    [yes] in some letter case exactly when the test on the lowercased text
    succeeds; then [evaluate] returns [passing = True], whatever surrounds
    it and whatever [raise_error] is.  A text without it gives
    [passing = False] when [raise_error] is off, and no result at all (the
    call raises [ValueError]) when [raise_error] is on.  Every result
    returned carries [passing = True] if and only if the lowercased text
    contains [yes]. *)
Theorem evaluate_passing_iff_yes self q r cs kwargs index engine response_obj :
  from_documents (docs_of cs) (_service_context self) = Returns index ->
  as_query_engine index (_eval_template self) (_refine_template self)
    = Returns engine ->
  engine_query engine ("Question: " ++ q ++ nl ++ "Response: " ++ r)
    = Returns response_obj ->
  (contains "yes" (lower (str response_obj)) = true <->
   exists pre mid post,
     str response_obj = pre ++ mid ++ post /\ lower mid = "yes") /\
  (contains "yes" (lower (str response_obj)) = true ->
   exists res,
     outcome_of (evaluate self (Some q) (Some r) (Some cs) kwargs)
       = Returns res /\
     base.passing res = Some true) /\
  (contains "yes" (lower (str response_obj)) = false ->
   _raise_error self = false ->
   exists res,
     outcome_of (evaluate self (Some q) (Some r) (Some cs) kwargs)
       = Returns res /\
     base.passing res = Some false) /\
  (contains "yes" (lower (str response_obj)) = false ->
   _raise_error self = true ->
   outcome_of (evaluate self (Some q) (Some r) (Some cs) kwargs)
     = Raises (ValueError "The response is invalid")) /\
  (forall res,
     outcome_of (evaluate self (Some q) (Some r) (Some cs) kwargs)
       = Returns res ->
     (base.passing res = Some true <->
      contains "yes" (lower (str response_obj)) = true) /\
     (base.passing res = Some false <->
      contains "yes" (lower (str response_obj)) = false)).
Proof.
  intros Hidx Heng Hq.
  rewrite (evaluate_answered self q r cs kwargs _ _ _ Hidx Heng Hq). cbn.
  split; [apply contains_yes_lower|].
  destruct (contains "yes" (lower (str response_obj))) eqn:Hyes.
  - split; [|split; [|split]]; try discriminate.
    + intros _. eexists. split; reflexivity.
    + intros res [= <-]. cbn. now split.
  - split; [|split; [|split]]; try discriminate.
    + intros _ ->. eexists. split; reflexivity.
    + now intros _ ->.
    + destruct (_raise_error self); [discriminate|].
      intros res [= <-]. cbn. split; split; (discriminate || reflexivity).
Qed.

End YesClaims.

(** C1, the claim as written fails: with [raise_error] on, the answer
    [No, definitely not] holds no [yes] and still does not give a result
    with [passing = False]; the call raises. *)
Lemma no_yes_with_raise_error_gives_no_result :
  contains "yes" (lower "No, definitely not") = false /\
  outcome_of (evaluate (scripted_evaluator "No, definitely not" true)
                       (Some "q") (Some "r") (Some ["c"]) [])
    = Raises (ValueError "The response is invalid") /\
  ~ (exists res,
       outcome_of (evaluate (scripted_evaluator "No, definitely not" true)
                            (Some "q") (Some "r") (Some ["c"]) [])
         = Returns res /\
       base.passing res = Some false).
Proof.
  split; [reflexivity|]. split; [reflexivity|].
  intros (res & Hres & _). discriminate.
Qed.

(** The three texts the specification lists. *)
Example verdict_on_listed_texts :
  outcome_of (evaluate (scripted_evaluator "Answer: YES, because..." false)
                       (Some "q") (Some "r") (Some ["c"]) [])
    = Returns (result_of "q" "r" true "Answer: YES, because...") /\
  outcome_of (evaluate (scripted_evaluator "No, definitely not" false)
                       (Some "q") (Some "r") (Some ["c"]) [])
    = Returns (result_of "q" "r" false "No, definitely not") /\
  outcome_of (evaluate (scripted_evaluator "yesno" false)
                       (Some "q") (Some "r") (Some ["c"]) [])
    = Returns (result_of "q" "r" true "yesno").
Proof. repeat split. Qed.

(** ** The claim about construction *)

Section InitClaims.

Context `{Collaborators}.

(** C7 (amended).  A template handed to the constructor as a template
    object is not validated: whatever placeholders it mentions, it is
    stored as it is, and construction returns the evaluator holding it, as
    soon as a service context is given or the default one is built.  An
    omitted template is replaced by the default, and the two default
    templates mention the recognized placeholders. *)
Theorem init_keeps_template_objects raise_error
    (eval_template refine_template : option BasePromptTemplate) :
  (forall sc,
     __init__ (Some sc) raise_error
              (option_map inr eval_template) (option_map inr refine_template) =
       ([], Returns {| _service_context := sc;
                       _raise_error := raise_error;
                       _eval_template :=
                         match eval_template with
                         | Some t => t
                         | None => DEFAULT_EVAL_TEMPLATE
                         end;
                       _refine_template :=
                         match refine_template with
                         | Some t => t
                         | None => DEFAULT_REFINE_TEMPLATE
                         end |})) /\
  (forall sc,
     from_defaults = Returns sc ->
     __init__ None raise_error
              (option_map inr eval_template) (option_map inr refine_template) =
       ([ServiceContext_from_defaults],
        Returns {| _service_context := sc;
                   _raise_error := raise_error;
                   _eval_template :=
                     match eval_template with
                     | Some t => t
                     | None => DEFAULT_EVAL_TEMPLATE
                     end;
                   _refine_template :=
                     match refine_template with
                     | Some t => t
                     | None => DEFAULT_REFINE_TEMPLATE
                     end |})) /\
  has_placeholders eval_placeholders DEFAULT_EVAL_TEMPLATE = true /\
  has_placeholders refine_placeholders DEFAULT_REFINE_TEMPLATE = true.
Proof.
  split; [|split; [|split; reflexivity]].
  - intros sc. rewrite init_with_context.
    now destruct eval_template, refine_template.
  - intros sc Hsc. unfold __init__, bind, call, ret. rewrite Hsc.
    now destruct eval_template, refine_template.
Qed.

End InitClaims.

(** C7, the claim as written fails: the default eval template, passed as
    the refine template, mentions neither [{existing_answer}] nor
    [{context_msg}], and construction succeeds and stores it. *)
Lemma init_accepts_template_missing_placeholders :
  has_placeholders refine_placeholders DEFAULT_EVAL_TEMPLATE = false /\
  mentions "existing_answer" DEFAULT_EVAL_TEMPLATE = false /\
  mentions "context_msg" DEFAULT_EVAL_TEMPLATE = false /\
  __init__ (H := scripted "YES") (Some tt) false None
           (Some (inr DEFAULT_EVAL_TEMPLATE)) =
    ([], Returns (@Build_RelevancyEvaluator (scripted "YES") tt false
                    DEFAULT_EVAL_TEMPLATE DEFAULT_EVAL_TEMPLATE)).
Proof. repeat split. Qed.

(** C7 at the default service context of the scripted collaborator, with
    the default eval template handed over as the refine template. *)
Lemma init_keeps_template_objects_witness :
  from_defaults (Collaborators := scripted "YES") = Returns tt /\
  __init__ (H := scripted "YES") None true
           None (Some (inr DEFAULT_EVAL_TEMPLATE)) =
    ([ServiceContext_from_defaults],
     Returns (@Build_RelevancyEvaluator (scripted "YES") tt true
                DEFAULT_EVAL_TEMPLATE DEFAULT_EVAL_TEMPLATE)).
Proof.
  split; [reflexivity|].
  apply (proj1 (proj2 (@init_keeps_template_objects (scripted "YES") true
                         None (Some DEFAULT_EVAL_TEMPLATE))) tt).
  reflexivity.
Defined.

(** ** The claim about the adapter *)

Section AdapterClaims.

Context {E Node : Type} `{BaseEvaluator E} `{HasContent Node}.

(** Without an option named [contexts], the adapter is the delegation. *)
Lemma evaluate_response_delegates (self : E) query
    (response : Response Node) kwargs :
  has_key "contexts" kwargs = false ->
  evaluate_response self query (Some response) kwargs =
  base.evaluate self query (schema.response response)
                (Some (map get_content (source_nodes response))) kwargs.
Proof. intros Hkey. unfold evaluate_response. now rewrite Hkey. Qed.

(** C5.  For any evaluator, [evaluate_response] on a response object is
    [evaluate] on the object's text and the contents of its source items in
    order, with the same call log and outcome; so a response object with
    text [R] and source contents [c1], [c2] gives what
    [evaluate(query, R, [c1, c2])] gives. *)
Theorem evaluate_response_is_evaluate (self : E) query :
  (forall response : Response Node,
     evaluate_response self query (Some response) [] =
     base.evaluate self query (schema.response response)
                   (Some (map get_content (source_nodes response))) []) /\
  (forall response : Response Node,
     schema.response response = Some "R" ->
     map get_content (source_nodes response) = ["c1"; "c2"] ->
     evaluate_response self query (Some response) [] =
     base.evaluate self query (Some "R") (Some ["c1"; "c2"]) []).
Proof.
  split.
  - intros response. now apply evaluate_response_delegates.
  - intros response Htext Hsrc.
    rewrite evaluate_response_delegates by reflexivity.
    now rewrite Htext, Hsrc.
Qed.

End AdapterClaims.

(** ** The theorems at concrete inputs *)

(** C2 at a call without a response. *)
Lemma evaluate_rejects_absent_input_witness :
  (Some "q" = None \/ @None string = None \/ Some ["c"] = None) /\
  log_of (evaluate (scripted_evaluator "YES" false)
                   (Some "q") None (Some ["c"]) []) = [] /\
  outcome_of (evaluate (scripted_evaluator "YES" false)
                       (Some "q") None (Some ["c"]) []) =
    Raises (ValueError "query, contexts, and response must be provided") /\
  (forall res,
     outcome_of (evaluate (scripted_evaluator "YES" false)
                          (Some "q") None (Some ["c"]) []) <> Returns res).
Proof.
  split; [right; left; reflexivity|].
  apply (@evaluate_rejects_absent_input (scripted "YES")
           (scripted_evaluator "YES" false) (Some "q") None (Some ["c"]) []).
  right; left; reflexivity.
Defined.

(** C9 at the query [q] and the response [r]. *)
Lemma evaluate_query_subject_witness :
  In (query_call ("Question: q" ++ nl ++ "Response: r"))
     (log_of (evaluate (scripted_evaluator "YES" false)
                       (Some "q") (Some "r") (Some ["c"]) [])) /\
  exists q r, Some "q" = Some q /\ Some "r" = Some r /\
              "Question: q" ++ nl ++ "Response: r" =
              "Question: " ++ q ++ nl ++ "Response: " ++ r.
Proof.
  split; [cbn; right; right; left; reflexivity|].
  apply (proj1 (@evaluate_query_subject (scripted "YES")
                  (scripted_evaluator "YES" false)
                  (Some "q") (Some "r") (Some ["c"]) [])).
  cbn; right; right; left; reflexivity.
Defined.

(** C6 at the query [q] and the response [r], the collaborator answering
    [YES] over zero documents. *)
Lemma evaluate_accepts_empty_contexts_witness :
  from_documents (Collaborators := scripted "YES") [] tt = Returns [] /\
  as_query_engine (Collaborators := scripted "YES") []
    DEFAULT_EVAL_TEMPLATE DEFAULT_REFINE_TEMPLATE = Returns [] /\
  engine_query (Collaborators := scripted "YES") []
    ("Question: " ++ "q" ++ nl ++ "Response: " ++ "r") = Returns "YES" /\
  outcome_of (evaluate (scripted_evaluator "YES" false)
                       (Some "q") (Some "r") (Some []) []) =
    Returns (result_of "q" "r" true "YES").
Proof.
  split; [reflexivity|]. split; [reflexivity|]. split; [reflexivity|].
  apply (proj2 (proj2 (@evaluate_accepts_empty_contexts (scripted "YES")
                         (scripted_evaluator "YES" false) "q" "r" []))
           [] [] "YES"); reflexivity.
Defined.

(** C4 at a run over two contexts, the collaborator answering [yesno]. *)
Lemma evaluate_result_fields_witness :
  evaluate (scripted_evaluator "yesno" false)
           (Some "q") (Some "r") (Some ["c1"; "c2"]) [] =
    (log_of (evaluate (scripted_evaluator "yesno" false)
                      (Some "q") (Some "r") (Some ["c1"; "c2"]) []),
     Returns (result_of "q" "r" true "yesno")) /\
  base.query (result_of "q" "r" true "yesno") = Some "q" /\
  base.response (result_of "q" "r" true "yesno") = Some "r" /\
  (base.passing (result_of "q" "r" true "yesno") = Some true \/
   base.passing (result_of "q" "r" true "yesno") = Some false) /\
  base.contexts (result_of "q" "r" true "yesno") = None /\
  base.score (result_of "q" "r" true "yesno") = None /\
  exists index engine response_obj,
    from_documents (Collaborators := scripted "yesno")
      (docs_of ["c1"; "c2"]) tt = Returns index /\
    as_query_engine (Collaborators := scripted "yesno") index
      DEFAULT_EVAL_TEMPLATE DEFAULT_REFINE_TEMPLATE = Returns engine /\
    engine_query (Collaborators := scripted "yesno") engine
      ("Question: " ++ "q" ++ nl ++ "Response: " ++ "r") = Returns response_obj /\
    base.feedback (result_of "q" "r" true "yesno") =
      Some (str (Collaborators := scripted "yesno") response_obj).
Proof.
  split; [reflexivity|].
  apply (@evaluate_result_fields (scripted "yesno")
           (scripted_evaluator "yesno" false) "q" "r" ["c1"; "c2"] []
           (log_of (evaluate (scripted_evaluator "yesno" false)
                             (Some "q") (Some "r") (Some ["c1"; "c2"]) []))
           (result_of "q" "r" true "yesno")).
  reflexivity.
Defined.

(** C3 at the answer [No, definitely not], with [raise_error] on. *)
Lemma negative_verdict_raises_or_returns_witness :
  __init__ (H := scripted "No, definitely not") (Some tt) true None None =
    ([], Returns (scripted_evaluator "No, definitely not" true)) /\
  contains "yes" (lower "No, definitely not") = false /\
  outcome_of (evaluate (scripted_evaluator "No, definitely not" true)
                       (Some "q") (Some "r") (Some ["c"]) []) =
    Raises (ValueError "The response is invalid").
Proof.
  split; [reflexivity|]. split; [reflexivity|].
  apply (proj1 (@negative_verdict_raises_or_returns
                  (scripted "No, definitely not")
                  (Some tt) true None None []
                  (scripted_evaluator "No, definitely not" true)
                  "q" "r" ["c"] []
                  (docs_of ["c"]) (docs_of ["c"]) "No, definitely not"
                  eq_refl eq_refl eq_refl eq_refl eq_refl) eq_refl).
Defined.

(** C1 at the answer [Answer: YES, because...], with [raise_error] on. *)
Lemma evaluate_passing_iff_yes_witness :
  contains "yes" (lower "Answer: YES, because...") = true /\
  exists res,
    outcome_of (evaluate (scripted_evaluator "Answer: YES, because..." true)
                         (Some "q") (Some "r") (Some ["c"]) [])
      = Returns res /\
    base.passing res = Some true.
Proof.
  split; [reflexivity|].
  apply (proj1 (proj2 (@evaluate_passing_iff_yes
                         (scripted "Answer: YES, because...")
                         (scripted_evaluator "Answer: YES, because..." true)
                         "q" "r" ["c"] []
                         (docs_of ["c"]) (docs_of ["c"])
                         "Answer: YES, because..."
                         eq_refl eq_refl eq_refl))).
  reflexivity.
Defined.

(** C5 at the relevancy evaluator, a response object with text [R] and the
    source items [c1], [c2]. *)
Lemma evaluate_response_is_evaluate_witness :
  schema.response {| schema.response := Some "R";
                     source_nodes := ["c1"; "c2"] |} = Some "R" /\
  map get_content ["c1"; "c2"] = ["c1"; "c2"] /\
  evaluate_response (scripted_evaluator "YES" false) (Some "q")
    (Some {| schema.response := Some "R"; source_nodes := ["c1"; "c2"] |}) [] =
  base.evaluate (scripted_evaluator "YES" false) (Some "q")
    (Some "R") (Some ["c1"; "c2"]) [].
Proof.
  split; [reflexivity|]. split; [reflexivity|].
  apply (proj2 (@evaluate_response_is_evaluate
                  (@RelevancyEvaluator (scripted "YES")) string
                  RelevancyEvaluator_BaseEvaluator text_node
                  (scripted_evaluator "YES" false) (Some "q"))
           {| schema.response := Some "R"; source_nodes := ["c1"; "c2"] |});
    reflexivity.
Defined.

(** * Further properties of the two modules *)

(** ** More facts about texts *)

Section MoreTextFacts.

Lemma length_app (s t : string) :
  String.length (s ++ t) = String.length s + String.length t.
Proof. induction s as [|c s IH]; simpl; [reflexivity | now rewrite IH]. Qed.

(** A text that holds [needle] is at least as long as [needle]. *)
Lemma contains_length (n h : string) :
  contains n h = true -> String.length n <= String.length h.
Proof.
  intros Hin. apply contains_app in Hin as (pre & post & ->).
  rewrite !length_app. lia.
Qed.

Lemma contains_cons_false (n : string) (c : ascii) (h : string) :
  contains n (String c h) = false -> contains n h = false.
Proof. cbn [contains]. intros Hno. now apply orb_false_iff in Hno as [_ Hno]. Qed.

(** Two texts cut at their first line feed agree piece by piece. *)
Lemma split_at_first_nl (u u' v v' : string) :
  contains nl u = false -> contains nl u' = false ->
  u ++ nl ++ v = u' ++ nl ++ v' -> u = u' /\ v = v'.
Proof.
  revert u'; induction u as [|c u IH]; intros u' Hu Hu' Heq.
  - destruct u' as [|c' u']; cbn in Heq.
    + now injection Heq as ->.
    + injection Heq as <- _. cbn in Hu'. discriminate.
  - destruct u' as [|c' u']; cbn in Heq.
    + injection Heq as -> _. cbn in Hu. discriminate.
    + injection Heq as -> Heq.
      destruct (IH u' (contains_cons_false _ _ _ Hu)
                   (contains_cons_false _ _ _ Hu') Heq) as [-> ->].
      now split.
Qed.

Lemma append_assoc (s t u : string) : (s ++ t) ++ u = s ++ t ++ u.
Proof. induction s as [|c s IH]; cbn; [reflexivity | now rewrite IH]. Qed.

Lemma app_inv_head (p s t : string) : p ++ s = p ++ t -> s = t.
Proof.
  induction p as [|c p IH]; cbn; intros Heq; [assumption|].
  injection Heq as Heq. now apply IH.
Qed.

End MoreTextFacts.

(** ** The shape of a run *)

Section RunShape.

Context `{Collaborators}.

Implicit Types (self : RelevancyEvaluator) (kwargs : Kwargs).

(** With the three inputs present, a run is the chain of the three
    collaborator calls, cut at the first one that raises. *)
Lemma evaluate_present self q r cs kwargs :
  evaluate self (Some q) (Some r) (Some cs) kwargs =
  match from_documents (docs_of cs) (_service_context self) with
  | Raises e => ([SummaryIndex_from_documents (docs_of cs)], Raises e)
  | Returns index =>
      match as_query_engine index (_eval_template self)
                            (_refine_template self) with
      | Raises e =>
          ([SummaryIndex_from_documents (docs_of cs);
            as_query_engine_call (_eval_template self)
                                 (_refine_template self)], Raises e)
      | Returns engine =>
          ([SummaryIndex_from_documents (docs_of cs);
            as_query_engine_call (_eval_template self) (_refine_template self);
            query_call (subject_of q r)],
           match engine_query engine (subject_of q r) with
           | Raises e => Raises e
           | Returns response_obj =>
               if contains "yes" (lower (str response_obj))
               then Returns (result_of q r true (str response_obj))
               else if _raise_error self
                    then Raises (ValueError "The response is invalid")
                    else Returns (result_of q r false (str response_obj))
           end)
      end
  end.
Proof.
  unfold evaluate, bind, call, ret, raise.
  destruct (from_documents _ _) as [index|e]; [|reflexivity].
  destruct (as_query_engine _ _ _) as [engine|e]; [|reflexivity].
  destruct (engine_query _ _) as [response_obj|e]; [|reflexivity].
  destruct (contains "yes" (lower (str response_obj))); [reflexivity|].
  destruct (_raise_error self); reflexivity.
Qed.

End RunShape.

(** ** Inputs, calls and failures of [RelevancyEvaluator.evaluate] *)

Section RunProperties.

Context `{Collaborators}.

Implicit Types (self : RelevancyEvaluator) (kwargs : Kwargs).

(** A run calls no collaborator exactly when an input is absent. *)
Lemma evaluate_log_nil_iff self query response contexts kwargs :
  log_of (evaluate self query response contexts kwargs) = [] <->
  query = None \/ response = None \/ contexts = None.
Proof.
  split.
  - destruct query as [q|], response as [r|], contexts as [cs|]; auto.
    destruct (evaluate_log_head self q r cs kwargs) as [rest Hlog].
    rewrite Hlog. discriminate.
  - intros Habsent. now rewrite (evaluate_missing _ _ _ _ _ Habsent).
Qed.

(** X1.  [evaluate] stops at the input check exactly when one of the three
    inputs is [None]: the call raises the [ValueError] of the check without
    calling a collaborator if and only if an input is absent, and any run
    that calls no collaborator is such a run.  Empty strings and the empty
    list are present and go on to the index. *)
Theorem evaluate_input_check_iff self query response contexts kwargs :
  (evaluate self query response contexts kwargs =
     ([], Raises (ValueError "query, contexts, and response must be provided"))
   <-> query = None \/ response = None \/ contexts = None) /\
  (log_of (evaluate self query response contexts kwargs) = [] <->
   query = None \/ response = None \/ contexts = None) /\
  (forall contexts',
     log_of (evaluate self (Some "") (Some "") (Some contexts') kwargs) <> []).
Proof.
  split; [|split].
  - split; [|apply evaluate_missing].
    intros Hrun. apply (evaluate_log_nil_iff self _ _ _ kwargs). now rewrite Hrun.
  - apply evaluate_log_nil_iff.
  - intros contexts' Hlog. apply evaluate_log_nil_iff in Hlog.
    destruct Hlog as [Hq | [Hr | Hc]]; discriminate.
Qed.

(** X2.  Every index [evaluate] builds is over one document per context,
    in the order of the contexts and with their texts unchanged; nothing is
    merged, dropped or reordered. *)
Theorem evaluate_documents_follow_contexts self query response contexts
    kwargs docs :
  In (SummaryIndex_from_documents docs)
     (log_of (evaluate self query response contexts kwargs)) ->
  contexts = Some (map text docs) /\
  (forall cs, contexts = Some cs -> length docs = length cs).
Proof.
  intros Hin.
  destruct query as [q|], contexts as [cs|], response as [r|];
    try (cbn in Hin; contradiction).
  assert (Hdocs : docs = docs_of cs).
  { rewrite evaluate_present in Hin. unfold log_of in Hin.
    destruct (from_documents _ _) as [index|e]; cbn in Hin.
    - destruct (as_query_engine _ _ _) as [engine|e]; cbn in Hin.
      + destruct Hin as [Hev|[Hev|[Hev|[]]]]; try discriminate.
        now injection Hev as <-.
      + destruct Hin as [Hev|[Hev|[]]]; try discriminate.
        now injection Hev as <-.
    - destruct Hin as [Hev|[]]. now injection Hev as <-. }
  subst docs. rewrite map_map. cbn. rewrite map_id. split; [reflexivity|].
  intros cs' [= <-]. now rewrite length_map.
Qed.

(** X3.  With the inputs present, the calls of a run are an initial part of
    the chain: build the index, obtain the query engine with the stored
    templates, issue the query.  So a run builds at most one index, issues
    at most one query, repeats no call, and never builds a service
    context. *)
Theorem evaluate_log_is_prefix self q r cs kwargs :
  exists n,
    log_of (evaluate self (Some q) (Some r) (Some cs) kwargs) =
    firstn (S n)
      [SummaryIndex_from_documents
         (map (fun context => {| text := context |}) cs);
       as_query_engine_call (_eval_template self) (_refine_template self);
       query_call ("Question: " ++ q ++ nl ++ "Response: " ++ r)].
Proof.
  rewrite evaluate_present. unfold log_of.
  destruct (from_documents _ _) as [index|e]; [|now exists 0].
  destruct (as_query_engine _ _ _) as [engine|e]; [now exists 2 | now exists 1].
Qed.

(** X4.  An exception raised by a collaborator leaves [evaluate] unchanged
    and ends the run at that call: a failing index construction is followed
    by no other call, a failing query engine by no query, and a failing
    query is not repeated. *)
Theorem evaluate_collaborator_failure_propagates self q r cs kwargs e :
  (from_documents (docs_of cs) (_service_context self) = Raises e ->
   evaluate self (Some q) (Some r) (Some cs) kwargs =
     ([SummaryIndex_from_documents (docs_of cs)], Raises e)) /\
  (forall index,
     from_documents (docs_of cs) (_service_context self) = Returns index ->
     as_query_engine index (_eval_template self) (_refine_template self)
       = Raises e ->
     evaluate self (Some q) (Some r) (Some cs) kwargs =
       ([SummaryIndex_from_documents (docs_of cs);
         as_query_engine_call (_eval_template self) (_refine_template self)],
        Raises e)) /\
  (forall index engine,
     from_documents (docs_of cs) (_service_context self) = Returns index ->
     as_query_engine index (_eval_template self) (_refine_template self)
       = Returns engine ->
     engine_query engine ("Question: " ++ q ++ nl ++ "Response: " ++ r)
       = Raises e ->
     evaluate self (Some q) (Some r) (Some cs) kwargs =
       ([SummaryIndex_from_documents (docs_of cs);
         as_query_engine_call (_eval_template self) (_refine_template self);
         query_call ("Question: " ++ q ++ nl ++ "Response: " ++ r)],
        Raises e)).
Proof.
  rewrite evaluate_present. split; [|split].
  - now intros ->.
  - now intros index -> ->.
  - now intros index engine -> -> ->.
Qed.

(** X5.  Every exception [evaluate] raises has one of three origins: the
    input check (an input is [None], nothing was called), a collaborator
    that raised it, or a negative verdict under [raise_error]. *)
Theorem evaluate_raises_inv self query response contexts kwargs log e :
  evaluate self query response contexts kwargs = (log, Raises e) ->
  ((query = None \/ response = None \/ contexts = None) /\ log = [] /\
   e = ValueError "query, contexts, and response must be provided") \/
  (exists q r cs,
     query = Some q /\ response = Some r /\ contexts = Some cs /\
     (from_documents (docs_of cs) (_service_context self) = Raises e \/
      (exists index,
         from_documents (docs_of cs) (_service_context self) = Returns index /\
         (as_query_engine index (_eval_template self) (_refine_template self)
            = Raises e \/
          exists engine,
            as_query_engine index (_eval_template self) (_refine_template self)
              = Returns engine /\
            (engine_query engine (subject_of q r) = Raises e \/
             exists response_obj,
               engine_query engine (subject_of q r) = Returns response_obj /\
               contains "yes" (lower (str response_obj)) = false /\
               _raise_error self = true /\
               e = ValueError "The response is invalid"))))).
Proof.
  destruct query as [q|], response as [r|], contexts as [cs|];
    try (intros [= <- <-]; left; repeat split; auto).
  rewrite evaluate_present. intros Hrun. right. exists q, r, cs.
  repeat split.
  destruct (from_documents _ _) as [index|e1]; [|injection Hrun as _ <-; now left].
  right. exists index. split; [reflexivity|].
  destruct (as_query_engine _ _ _) as [engine|e2];
    [|injection Hrun as _ <-; now left].
  right. exists engine. split; [reflexivity|].
  destruct (engine_query _ _) as [response_obj|e3];
    [|injection Hrun as _ <-; now left].
  right. exists response_obj. split; [reflexivity|].
  destruct (contains "yes" (lower (str response_obj))); [discriminate|].
  destruct (_raise_error self); [|discriminate].
  injection Hrun as _ <-. now repeat split.
Qed.

End RunProperties.

(** ** The verdict and the [raise_error] switch *)

Section SwitchProperties.

Context `{Collaborators}.

Implicit Types (self : RelevancyEvaluator) (kwargs : Kwargs).

(** X6.  [raise_error] cuts off the negative results and changes nothing
    else: two evaluators that differ only in it make the same calls; with
    it on, every result returned is passing and is the result returned
    with it off; and whatever is raised with it off is raised with it on. *)
Theorem raise_error_only_cuts_negative sc eval_template refine_template
    query response contexts kwargs :
  log_of (evaluate (Build_RelevancyEvaluator sc true eval_template
                                             refine_template)
                   query response contexts kwargs) =
  log_of (evaluate (Build_RelevancyEvaluator sc false eval_template
                                             refine_template)
                   query response contexts kwargs) /\
  (forall res,
     outcome_of (evaluate (Build_RelevancyEvaluator sc true eval_template
                                                    refine_template)
                          query response contexts kwargs) = Returns res ->
     base.passing res = Some true /\
     outcome_of (evaluate (Build_RelevancyEvaluator sc false eval_template
                                                    refine_template)
                          query response contexts kwargs) = Returns res) /\
  (forall e,
     outcome_of (evaluate (Build_RelevancyEvaluator sc false eval_template
                                                    refine_template)
                          query response contexts kwargs) = Raises e ->
     outcome_of (evaluate (Build_RelevancyEvaluator sc true eval_template
                                                    refine_template)
                          query response contexts kwargs) = Raises e).
Proof.
  destruct query as [q|], response as [r|], contexts as [cs|];
    try (repeat split; intros; cbn in *; congruence).
  rewrite !evaluate_present. cbn.
  destruct (from_documents _ _) as [index|e1];
    [|repeat split; intros; cbn in *; congruence].
  destruct (as_query_engine _ _ _) as [engine|e2];
    [|repeat split; intros; cbn in *; congruence].
  destruct (engine_query _ _) as [response_obj|e3];
    [|repeat split; intros; cbn in *; congruence].
  destruct (contains "yes" (lower (str response_obj)));
    repeat split; intros; cbn in *; try congruence.
  match goal with Hres : Returns _ = Returns _ |- _ => now injection Hres as <- end.
Qed.

(** X7.  A judgment text shorter than three characters, the empty text
    included, cannot hold [yes]: the verdict is negative, so the call
    returns [passing = False], or raises under [raise_error]. *)
Theorem short_answer_never_passes self q r cs kwargs index engine
    response_obj :
  from_documents (docs_of cs) (_service_context self) = Returns index ->
  as_query_engine index (_eval_template self) (_refine_template self)
    = Returns engine ->
  engine_query engine ("Question: " ++ q ++ nl ++ "Response: " ++ r)
    = Returns response_obj ->
  String.length (str response_obj) < 3 ->
  outcome_of (evaluate self (Some q) (Some r) (Some cs) kwargs) =
    if _raise_error self
    then Raises (ValueError "The response is invalid")
    else Returns {| base.query := Some q; base.contexts := None;
                    base.response := Some r; base.passing := Some false;
                    base.feedback := Some (str response_obj);
                    base.score := None |}.
Proof.
  intros Hidx Heng Hq Hshort.
  rewrite (evaluate_answered self q r cs kwargs _ _ _ Hidx Heng Hq). cbn.
  destruct (contains "yes" (lower (str response_obj))) eqn:Hyes; [|reflexivity].
  apply contains_length in Hyes. rewrite lower_length in Hyes. cbn in Hyes. lia.
Qed.

(** X8.  The templates given at construction are the ones every query
    engine is obtained with: a string is used as the template text, a
    template object is used as it is, and an omitted one is the default. *)
Theorem init_templates_reach_engine service_context raise_error eval_template
    refine_template log0 self query response contexts kwargs t_qa t_refine :
  __init__ service_context raise_error eval_template refine_template
    = (log0, Returns self) ->
  In (as_query_engine_call t_qa t_refine)
     (log_of (evaluate self query response contexts kwargs)) ->
  t_qa = match eval_template with
         | Some (inl s) => PromptTemplate s
         | Some (inr t) => t
         | None => DEFAULT_EVAL_TEMPLATE
         end /\
  t_refine = match refine_template with
             | Some (inl s) => PromptTemplate s
             | Some (inr t) => t
             | None => DEFAULT_REFINE_TEMPLATE
             end.
Proof.
  intros Hinit Hin.
  destruct (init_returns_inv _ _ _ _ _ _ Hinit) as (_ & He & Hr).
  destruct query as [q|], contexts as [cs|], response as [r|];
    try (cbn in Hin; contradiction).
  rewrite evaluate_present in Hin. unfold log_of in Hin.
  assert (Hts : t_qa = _eval_template self /\ t_refine = _refine_template self).
  { destruct (from_documents _ _) as [index|e]; cbn in Hin.
    - destruct (as_query_engine _ _ _) as [engine|e]; cbn in Hin.
      + destruct Hin as [Hev|[Hev|[Hev|[]]]]; try discriminate.
        now injection Hev as <- <-.
      + destruct Hin as [Hev|[Hev|[]]]; try discriminate.
        now injection Hev as <- <-.
    - destruct Hin as [Hev|[]]. discriminate. }
  destruct Hts as [-> ->]. now rewrite He, Hr.
Qed.

End SwitchProperties.

(** X9.  The text issued as the query determines the query and the
    response it was built from, as long as the queries hold no line feed. *)
Theorem subject_determines_query_response (q r q' r' : string) :
  contains nl q = false -> contains nl q' = false ->
  "Question: " ++ q ++ nl ++ "Response: " ++ r =
  "Question: " ++ q' ++ nl ++ "Response: " ++ r' ->
  q = q' /\ r = r'.
Proof.
  intros Hq Hq' Heq. apply app_inv_head in Heq.
  destruct (split_at_first_nl _ _ _ _ Hq Hq' Heq) as [-> Hrest].
  split; [reflexivity|]. now apply app_inv_head in Hrest.
Qed.

(** ** The adapter over the relevancy strategy *)

Section AdapterOverRelevancy.

Context `{Collaborators} {Node : Type} `{HasContent Node}.

Implicit Types (self : RelevancyEvaluator) (kwargs : Kwargs).

(** The adapter on the relevancy evaluator, without an option named
    [contexts], is [RelevancyEvaluator.evaluate] on what it extracts. *)
Lemma evaluate_response_relevancy self query
    (response : option (Response Node)) kwargs :
  has_key "contexts" kwargs = false ->
  evaluate_response self query response kwargs =
  match response with
  | Some r => evaluate self query (schema.response r)
                       (Some (map get_content (source_nodes r))) kwargs
  | None => evaluate self query None None kwargs
  end.
Proof.
  intros Hkey. unfold evaluate_response. rewrite Hkey.
  now destruct response.
Qed.

(** X10.  [evaluate_response] on a relevancy evaluator calls no
    collaborator, and raises the [ValueError] of the input check, exactly
    when the query is [None], the response object is [None], or the
    response object has no text; source items alone never cause it, even
    when there are none.  Otherwise its first call builds the index over
    the contents of the source items, in order. *)
Theorem evaluate_response_input_check self query
    (response : option (Response Node)) kwargs :
  has_key "contexts" kwargs = false ->
  (log_of (evaluate_response self query response kwargs) = [] <->
   query = None \/ response = None \/
   exists r, response = Some r /\ schema.response r = None) /\
  (log_of (evaluate_response self query response kwargs) = [] ->
   outcome_of (evaluate_response self query response kwargs) =
     Raises (ValueError "query, contexts, and response must be provided")) /\
  (forall q r response_str,
     query = Some q -> response = Some r ->
     schema.response r = Some response_str ->
     exists rest,
       log_of (evaluate_response self query response kwargs) =
       SummaryIndex_from_documents
         (map (fun node => {| text := get_content node |}) (source_nodes r))
       :: rest).
Proof.
  intros Hkey. rewrite (evaluate_response_relevancy _ _ _ _ Hkey).
  split; [|split].
  - destruct response as [r|]; rewrite evaluate_log_nil_iff.
    + split.
      * intros [Hq | [Hr | Hc]]; [now left | | discriminate].
        right; right. now exists r.
      * intros [Hq | [Hr | (r' & [= <-] & Hr)]];
          [now left | discriminate | right; now left].
    + split; [intros _; right; now left | intros _; right; now left].
  - intros Hlog.
    destruct response as [r|]; apply evaluate_log_nil_iff in Hlog;
      now rewrite (evaluate_missing _ _ _ _ _ Hlog).
  - intros q r response_str -> -> Hr. rewrite Hr.
    destruct (evaluate_log_head self q response_str
                (map get_content (source_nodes r)) kwargs) as [rest Hlog].
    exists rest. rewrite Hlog. now rewrite map_map.
Qed.

(** X11.  On a relevancy evaluator the options passed to
    [evaluate_response] make no difference, unless one is named
    [contexts]: the calls made and the outcome are those of the call
    without options. *)
Theorem evaluate_response_ignores_options self query
    (response : option (Response Node)) kwargs :
  has_key "contexts" kwargs = false ->
  evaluate_response self query response kwargs =
  evaluate_response self query response [].
Proof.
  intros Hkey.
  rewrite (evaluate_response_relevancy _ _ _ _ Hkey).
  rewrite (evaluate_response_relevancy self query response [] eq_refl).
  now destruct response.
Qed.

End AdapterOverRelevancy.

(** ** The further properties at concrete inputs *)

(** X1 at a call without a query. *)
Lemma evaluate_input_check_iff_witness :
  (@None string = None \/ Some "r" = None \/ Some ["c"] = None) /\
  evaluate (scripted_evaluator "YES" false) None (Some "r") (Some ["c"]) [] =
    ([], Raises (ValueError "query, contexts, and response must be provided")).
Proof.
  split; [now left|].
  apply (proj1 (@evaluate_input_check_iff (scripted "YES")
                  (scripted_evaluator "YES" false)
                  None (Some "r") (Some ["c"]) [])).
  now left.
Defined.

(** X2 at a run over the contexts [c1], [c2], [c1]. *)
Lemma evaluate_documents_follow_contexts_witness :
  In (SummaryIndex_from_documents (docs_of ["c1"; "c2"; "c1"]))
     (log_of (evaluate (scripted_evaluator "YES" false)
                       (Some "q") (Some "r") (Some ["c1"; "c2"; "c1"]) [])) /\
  Some ["c1"; "c2"; "c1"] = Some (map text (docs_of ["c1"; "c2"; "c1"])).
Proof.
  split; [cbn; now left|].
  apply (@evaluate_documents_follow_contexts (scripted "YES")
           (scripted_evaluator "YES" false)
           (Some "q") (Some "r") (Some ["c1"; "c2"; "c1"]) []
           (docs_of ["c1"; "c2"; "c1"])).
  cbn; now left.
Defined.

(** X4 at a collaborator whose query raises a connection error. *)
Lemma evaluate_collaborator_failure_propagates_witness :
  engine_query (Collaborators := unreachable (OtherError "ConnectionError" "down"))
    (docs_of ["c"]) ("Question: " ++ "q" ++ nl ++ "Response: " ++ "r")
    = Raises (OtherError "ConnectionError" "down") /\
  evaluate (@Build_RelevancyEvaluator
              (unreachable (OtherError "ConnectionError" "down")) tt true
              DEFAULT_EVAL_TEMPLATE DEFAULT_REFINE_TEMPLATE)
           (Some "q") (Some "r") (Some ["c"]) [] =
    ([SummaryIndex_from_documents (docs_of ["c"]);
      as_query_engine_call DEFAULT_EVAL_TEMPLATE DEFAULT_REFINE_TEMPLATE;
      query_call ("Question: " ++ "q" ++ nl ++ "Response: " ++ "r")],
     Raises (OtherError "ConnectionError" "down")).
Proof.
  split; [reflexivity|].
  apply (proj2 (proj2 (@evaluate_collaborator_failure_propagates
                         (unreachable (OtherError "ConnectionError" "down"))
                         (@Build_RelevancyEvaluator
                            (unreachable (OtherError "ConnectionError" "down"))
                            tt true
                            DEFAULT_EVAL_TEMPLATE DEFAULT_REFINE_TEMPLATE)
                         "q" "r" ["c"] []
                         (OtherError "ConnectionError" "down")))
           (docs_of ["c"]) (docs_of ["c"])); reflexivity.
Defined.

(** X6 at a positive answer: the result with [raise_error] on is the one
    with it off. *)
Lemma raise_error_only_cuts_negative_witness :
  outcome_of (evaluate (scripted_evaluator "YES" true)
                       (Some "q") (Some "r") (Some ["c"]) [])
    = Returns (result_of "q" "r" true "YES") /\
  base.passing (result_of "q" "r" true "YES") = Some true /\
  outcome_of (evaluate (scripted_evaluator "YES" false)
                       (Some "q") (Some "r") (Some ["c"]) [])
    = Returns (result_of "q" "r" true "YES").
Proof.
  split; [reflexivity|].
  apply (proj1 (proj2 (@raise_error_only_cuts_negative (scripted "YES") tt
                         DEFAULT_EVAL_TEMPLATE DEFAULT_REFINE_TEMPLATE
                         (Some "q") (Some "r") (Some ["c"]) []))
           (result_of "q" "r" true "YES")).
  reflexivity.
Defined.

(** X7 at the empty answer. *)
Lemma short_answer_never_passes_witness :
  String.length (str (Collaborators := scripted "") "") < 3 /\
  outcome_of (evaluate (scripted_evaluator "" false)
                       (Some "q") (Some "r") (Some []) []) =
    Returns (result_of "q" "r" false "").
Proof.
  split; [cbn; lia|].
  apply (@short_answer_never_passes (scripted "")
           (scripted_evaluator "" false) "q" "r" [] [] [] [] ""
           eq_refl eq_refl eq_refl).
  cbn; lia.
Defined.

(** X9 at two one-word queries. *)
Lemma subject_determines_query_response_witness :
  contains nl "q" = false /\
  "Question: " ++ "q" ++ nl ++ "Response: " ++ "r" =
  "Question: " ++ "q" ++ nl ++ "Response: " ++ "r" /\
  "q" = "q" /\ "r" = "r".
Proof.
  split; [reflexivity|]. split; [reflexivity|].
  apply (subject_determines_query_response "q" "r" "q" "r");
    reflexivity.
Defined.

(** X5 at a negative verdict under [raise_error]: the exception comes from
    the verdict, not from the input check or a collaborator. *)
Lemma evaluate_raises_inv_witness :
  evaluate (scripted_evaluator "NO" true)
           (Some "q") (Some "r") (Some ["c"]) [] =
    (log_of (evaluate (scripted_evaluator "NO" true)
                      (Some "q") (Some "r") (Some ["c"]) []),
     Raises (ValueError "The response is invalid")) /\
  (((Some "q" = None \/ Some "r" = None \/ Some ["c"] = None) /\
    log_of (evaluate (scripted_evaluator "NO" true)
                     (Some "q") (Some "r") (Some ["c"]) []) = [] /\
    ValueError "The response is invalid" =
    ValueError "query, contexts, and response must be provided") \/
   (exists q r cs,
      Some "q" = Some q /\ Some "r" = Some r /\ Some ["c"] = Some cs /\
      (from_documents (Collaborators := scripted "NO") (docs_of cs) tt
         = Raises (ValueError "The response is invalid") \/
       (exists index,
          from_documents (Collaborators := scripted "NO") (docs_of cs) tt
            = Returns index /\
          (as_query_engine (Collaborators := scripted "NO") index
             DEFAULT_EVAL_TEMPLATE DEFAULT_REFINE_TEMPLATE
             = Raises (ValueError "The response is invalid") \/
           exists engine,
             as_query_engine (Collaborators := scripted "NO") index
               DEFAULT_EVAL_TEMPLATE DEFAULT_REFINE_TEMPLATE
               = Returns engine /\
             (engine_query (Collaborators := scripted "NO") engine
                (subject_of q r)
                = Raises (ValueError "The response is invalid") \/
              exists response_obj,
                engine_query (Collaborators := scripted "NO") engine
                  (subject_of q r) = Returns response_obj /\
                contains "yes"
                  (lower (str (Collaborators := scripted "NO") response_obj))
                  = false /\
                true = true /\
                ValueError "The response is invalid" =
                ValueError "The response is invalid")))))).
Proof.
  split; [reflexivity|].
  apply (@evaluate_raises_inv (scripted "NO") (scripted_evaluator "NO" true)
           (Some "q") (Some "r") (Some ["c"]) []
           (log_of (evaluate (scripted_evaluator "NO" true)
                             (Some "q") (Some "r") (Some ["c"]) []))
           (ValueError "The response is invalid")).
  reflexivity.
Defined.

(** X8 at an evaluator constructed with an eval template given as a string
    and the refine template omitted. *)
Lemma init_templates_reach_engine_witness :
  __init__ (H := scripted "YES") (Some tt) false
           (Some (inl "Is {query_str} backed by {context_str}?")) None =
    ([], Returns (@Build_RelevancyEvaluator (scripted "YES") tt false
                    (PromptTemplate "Is {query_str} backed by {context_str}?")
                    DEFAULT_REFINE_TEMPLATE)) /\
  In (as_query_engine_call
        (PromptTemplate "Is {query_str} backed by {context_str}?")
        DEFAULT_REFINE_TEMPLATE)
     (log_of (evaluate (@Build_RelevancyEvaluator (scripted "YES") tt false
                          (PromptTemplate
                             "Is {query_str} backed by {context_str}?")
                          DEFAULT_REFINE_TEMPLATE)
                       (Some "q") (Some "r") (Some ["c"]) [])) /\
  PromptTemplate "Is {query_str} backed by {context_str}?" =
  PromptTemplate "Is {query_str} backed by {context_str}?" /\
  DEFAULT_REFINE_TEMPLATE = DEFAULT_REFINE_TEMPLATE.
Proof.
  split; [reflexivity|]. split; [cbn; right; now left|].
  apply (@init_templates_reach_engine (scripted "YES") (Some tt) false
           (Some (inl "Is {query_str} backed by {context_str}?")) None []
           (@Build_RelevancyEvaluator (scripted "YES") tt false
              (PromptTemplate "Is {query_str} backed by {context_str}?")
              DEFAULT_REFINE_TEMPLATE)
           (Some "q") (Some "r") (Some ["c"]) []
           (PromptTemplate "Is {query_str} backed by {context_str}?")
           DEFAULT_REFINE_TEMPLATE eq_refl).
  cbn; right; now left.
Defined.

(** X10 at a response object with source items and no text. *)
Lemma evaluate_response_input_check_witness :
  has_key "contexts" [("mode", PyStr "strict")] = false /\
  (Some "q" = None \/
   Some {| schema.response := None; source_nodes := ["c1"; "c2"] |} = None \/
   exists r,
     Some {| schema.response := None; source_nodes := ["c1"; "c2"] |} = Some r /\
     schema.response r = None) /\
  log_of (evaluate_response (scripted_evaluator "YES" false) (Some "q")
            (Some {| schema.response := None; source_nodes := ["c1"; "c2"] |})
            [("mode", PyStr "strict")]) = [].
Proof.
  split; [reflexivity|].
  assert (Hcase :
    Some "q" = None \/
    Some {| schema.response := None; source_nodes := ["c1"; "c2"] |} = None \/
    exists r,
      Some {| schema.response := None; source_nodes := ["c1"; "c2"] |} = Some r /\
      schema.response r = None).
  { right; right. eexists. split; reflexivity. }
  split; [exact Hcase|].
  apply (proj2 (proj1 (@evaluate_response_input_check (scripted "YES") string
                         text_node (scripted_evaluator "YES" false) (Some "q")
                         (Some {| schema.response := None;
                                  source_nodes := ["c1"; "c2"] |})
                         [("mode", PyStr "strict")] eq_refl))).
  exact Hcase.
Defined.

(** X11 at one option that is not [contexts]. *)
Lemma evaluate_response_ignores_options_witness :
  has_key "contexts" [("mode", PyStr "strict")] = false /\
  evaluate_response (scripted_evaluator "YES" false) (Some "q")
    (Some {| schema.response := Some "R"; source_nodes := ["c1"; "c2"] |})
    [("mode", PyStr "strict")] =
  evaluate_response (scripted_evaluator "YES" false) (Some "q")
    (Some {| schema.response := Some "R"; source_nodes := ["c1"; "c2"] |}) [].
Proof.
  split; [reflexivity|].
  apply (@evaluate_response_ignores_options (scripted "YES") string text_node
           (scripted_evaluator "YES" false) (Some "q")
           (Some {| schema.response := Some "R";
                    source_nodes := ["c1"; "c2"] |})
           [("mode", PyStr "strict")]).
  reflexivity.
Defined.

(** ** How the verdict follows the judgment text *)

Section VerdictFollowsText.

Context `{Collaborators}.

Implicit Types (self : RelevancyEvaluator) (kwargs : Kwargs).

(** X12.  Text around a passing judgment keeps it passing: when one call
    returns [passing = True] and another call's judgment text holds the
    first one's inside it, the other call returns [passing = True] too. *)
Theorem passing_survives_surrounding_text self q r cs kwargs index engine
    response_obj q' r' cs' kwargs' index' engine' response_obj' pre post res :
  from_documents (docs_of cs) (_service_context self) = Returns index ->
  as_query_engine index (_eval_template self) (_refine_template self)
    = Returns engine ->
  engine_query engine ("Question: " ++ q ++ nl ++ "Response: " ++ r)
    = Returns response_obj ->
  from_documents (docs_of cs') (_service_context self) = Returns index' ->
  as_query_engine index' (_eval_template self) (_refine_template self)
    = Returns engine' ->
  engine_query engine' ("Question: " ++ q' ++ nl ++ "Response: " ++ r')
    = Returns response_obj' ->
  str response_obj' = pre ++ str response_obj ++ post ->
  outcome_of (evaluate self (Some q) (Some r) (Some cs) kwargs) = Returns res ->
  base.passing res = Some true ->
  outcome_of (evaluate self (Some q') (Some r') (Some cs') kwargs') =
    Returns {| base.query := Some q'; base.contexts := None;
               base.response := Some r'; base.passing := Some true;
               base.feedback := Some (str response_obj');
               base.score := None |}.
Proof.
  intros Hidx Heng Hq Hidx' Heng' Hq' Htext.
  rewrite (evaluate_answered self q r cs kwargs _ _ _ Hidx Heng Hq).
  rewrite (evaluate_answered self q' r' cs' kwargs' _ _ _ Hidx' Heng' Hq').
  cbn. intros Hres Hpass.
  assert (Hyes : contains "yes" (lower (str response_obj)) = true).
  { destruct (contains "yes" (lower (str response_obj))); [reflexivity|].
    destruct (_raise_error self); [discriminate|].
    injection Hres as <-. discriminate. }
  apply contains_app in Hyes as (u & v & Hsplit).
  assert (Hyes' : contains "yes" (lower (str response_obj')) = true).
  { rewrite Htext, !lower_app, Hsplit. apply contains_app.
    exists (lower pre ++ u), (v ++ lower post).
    now rewrite !append_assoc. }
  now rewrite Hyes'.
Qed.

(** X13.  The verdict does not see letter case: two calls whose judgment
    texts are equal once lowered have the same kind of outcome, and the
    results they return carry the same [passing]. *)
Theorem verdict_ignores_letter_case self q r cs kwargs index engine
    response_obj q' r' cs' kwargs' index' engine' response_obj' :
  from_documents (docs_of cs) (_service_context self) = Returns index ->
  as_query_engine index (_eval_template self) (_refine_template self)
    = Returns engine ->
  engine_query engine ("Question: " ++ q ++ nl ++ "Response: " ++ r)
    = Returns response_obj ->
  from_documents (docs_of cs') (_service_context self) = Returns index' ->
  as_query_engine index' (_eval_template self) (_refine_template self)
    = Returns engine' ->
  engine_query engine' ("Question: " ++ q' ++ nl ++ "Response: " ++ r')
    = Returns response_obj' ->
  lower (str response_obj) = lower (str response_obj') ->
  (forall res,
     outcome_of (evaluate self (Some q) (Some r) (Some cs) kwargs)
       = Returns res ->
     exists res',
       outcome_of (evaluate self (Some q') (Some r') (Some cs') kwargs')
         = Returns res' /\
       base.passing res' = base.passing res) /\
  (forall e,
     outcome_of (evaluate self (Some q) (Some r) (Some cs) kwargs)
       = Raises e ->
     outcome_of (evaluate self (Some q') (Some r') (Some cs') kwargs')
       = Raises e).
Proof.
  intros Hidx Heng Hq Hidx' Heng' Hq' Hlow.
  rewrite (evaluate_answered self q r cs kwargs _ _ _ Hidx Heng Hq).
  rewrite (evaluate_answered self q' r' cs' kwargs' _ _ _ Hidx' Heng' Hq').
  cbn. rewrite <- Hlow.
  destruct (contains "yes" (lower (str response_obj))).
  - split; [|discriminate].
    intros res [= <-]. eexists. split; reflexivity.
  - destruct (_raise_error self).
    + split; [discriminate | now intros e [= <-]].
    + split; [|discriminate].
      intros res [= <-]. eexists. split; reflexivity.
Qed.

End VerdictFollowsText.

(** X12 at the parrot collaborator, the responses [yes] and [yes!]. *)
Lemma passing_survives_surrounding_text_witness :
  str (Collaborators := parrot)
      ("Question: " ++ "q" ++ nl ++ "Response: " ++ "yes!") =
    "" ++ str (Collaborators := parrot)
            ("Question: " ++ "q" ++ nl ++ "Response: " ++ "yes") ++ "!" /\
  outcome_of (evaluate (@Build_RelevancyEvaluator parrot tt true
                          DEFAULT_EVAL_TEMPLATE DEFAULT_REFINE_TEMPLATE)
                       (Some "q") (Some "yes") (Some ["c"]) []) =
    Returns (result_of "q" "yes" true
               ("Question: " ++ "q" ++ nl ++ "Response: " ++ "yes")) /\
  outcome_of (evaluate (@Build_RelevancyEvaluator parrot tt true
                          DEFAULT_EVAL_TEMPLATE DEFAULT_REFINE_TEMPLATE)
                       (Some "q") (Some "yes!") (Some []) []) =
    Returns (result_of "q" "yes!" true
               ("Question: " ++ "q" ++ nl ++ "Response: " ++ "yes!")).
Proof.
  split; [reflexivity|]. split; [reflexivity|].
  apply (@passing_survives_surrounding_text parrot
           (@Build_RelevancyEvaluator parrot tt true
              DEFAULT_EVAL_TEMPLATE DEFAULT_REFINE_TEMPLATE)
           "q" "yes" ["c"] [] (docs_of ["c"]) (docs_of ["c"])
           ("Question: " ++ "q" ++ nl ++ "Response: " ++ "yes")
           "q" "yes!" [] [] [] []
           ("Question: " ++ "q" ++ nl ++ "Response: " ++ "yes!")
           "" "!"
           (result_of "q" "yes" true
              ("Question: " ++ "q" ++ nl ++ "Response: " ++ "yes")));
    reflexivity.
Defined.

(** X13 at the parrot collaborator, the responses [YES] and [yes]. *)
Lemma verdict_ignores_letter_case_witness :
  lower (str (Collaborators := parrot)
             ("Question: " ++ "q" ++ nl ++ "Response: " ++ "YES")) =
  lower (str (Collaborators := parrot)
             ("Question: " ++ "q" ++ nl ++ "Response: " ++ "yes")) /\
  outcome_of (evaluate (@Build_RelevancyEvaluator parrot tt false
                          DEFAULT_EVAL_TEMPLATE DEFAULT_REFINE_TEMPLATE)
                       (Some "q") (Some "YES") (Some ["c"]) []) =
    Returns (result_of "q" "YES" true
               ("Question: " ++ "q" ++ nl ++ "Response: " ++ "YES")) /\
  exists res',
    outcome_of (evaluate (@Build_RelevancyEvaluator parrot tt false
                            DEFAULT_EVAL_TEMPLATE DEFAULT_REFINE_TEMPLATE)
                         (Some "q") (Some "yes") (Some ["c"]) []) =
      Returns res' /\
    base.passing res' =
    base.passing (result_of "q" "YES" true
                    ("Question: " ++ "q" ++ nl ++ "Response: " ++ "YES")).
Proof.
  split; [reflexivity|]. split; [reflexivity|].
  apply (proj1 (@verdict_ignores_letter_case parrot
                  (@Build_RelevancyEvaluator parrot tt false
                     DEFAULT_EVAL_TEMPLATE DEFAULT_REFINE_TEMPLATE)
                  "q" "YES" ["c"] [] (docs_of ["c"]) (docs_of ["c"])
                  ("Question: " ++ "q" ++ nl ++ "Response: " ++ "YES")
                  "q" "yes" ["c"] [] (docs_of ["c"]) (docs_of ["c"])
                  ("Question: " ++ "q" ++ nl ++ "Response: " ++ "yes")
                  eq_refl eq_refl eq_refl eq_refl eq_refl eq_refl eq_refl)).
  reflexivity.
Defined.
